(** * my-wallet-back: the sign-up and sign-in controllers

    A shallow embedding of [src/controllers/userController.ts].  The two
    handlers are asynchronous functions that call the user and session
    services, which reach the database and may throw; they are embedded as
    computations in a monad that threads the server state and carries thrown
    errors, with [try]/[catch] keeping the effects made before the throw. *)

From Stdlib Require Import String List ZArith Bool DecimalString.
From ExtLib Require Import Structures.Monad Structures.MonadExc.
Import ListNotations.
Import MonadNotation.
Local Open Scope string_scope.
Local Open Scope Z_scope.
Local Open Scope monad_scope.

(** ** Values of a request body *)

(** What [express.json()] leaves in [req.body]: JSON values, and [undefined]
    for a property that is not there.  Numbers are the integer-valued ones. *)
#[local] Unset Elimination Schemes.
Inductive JsValue : Type :=
| JUndefined
| JNull
| JBool (b : bool)
| JNum (n : Z)
| JStr (s : string)
| JArr (items : list JsValue)
| JObj (fields : list (string * JsValue)).
#[local] Set Elimination Schemes.

(** A request body is a parsed JSON object: its properties in order. *)
Definition Body : Type := list (string * JsValue).

(** Property access [body.key]: [undefined] when the object has no such
    property. *)
Fixpoint prop (body : Body) (key : string) : JsValue :=
  match body with
  | [] => JUndefined
  | (k, v) :: rest => if String.eqb k key then v else prop rest key
  end.

(** JavaScript's ToBoolean; [!v] is [negb (truthy v)]. *)
Definition truthy (v : JsValue) : bool :=
  match v with
  | JUndefined | JNull => false
  | JBool b => b
  | JNum n => negb (n =? 0)
  | JStr s => negb (String.eqb s "")
  | JArr _ | JObj _ => true
  end.

(** An error object, as thrown by a service or returned by the validator. *)
Record JsError : Type := mkError { errName : string; message : string }.

(** A row of the [users] table, as [userService.findEmail] resolves it. *)
Module User.
Record row : Type := mk { id : Z; name : string; email : string; password : string }.
End User.
Abbreviation User := User.row.

(** ** Responses *)

(** What is sent to the caller: [res.sendStatus(c)] sends the status text of
    [c] and nothing else, [res.status(c).send(x)] sends [x]. *)
Inductive ResBody : Type :=
| StatusText (code : Z)
| Text (s : string)
| Json (fields : list (string * JsValue)).

Record Response : Type := mkResponse { status : Z; body : ResBody }.

Definition sendStatus (code : Z) : Response := mkResponse code (StatusText code).
Definition send (code : Z) (b : ResBody) : Response := mkResponse code b.

(** ** Effects *)

(** The calls a handler makes on the services, in the order it makes them. *)
Inductive Call : Type :=
| CallFindEmail (email : JsValue)
| CallCreateUser (data : Body)
| CallIsPasswordValid (password : JsValue) (hash : string)
| CallCreateNewSession (userId : Z).

(** A call returns a value or throws. *)
Inductive Outcome (A : Type) : Type :=
| Returned (a : A)
| Thrown (e : JsError).
Arguments Returned {A} a.
Arguments Thrown {A} e.

Section Effects.
(** The state of the database behind the services. *)
Variable World : Type.

Record State : Type := mkState {
  world : World;              (* the database *)
  calls : list Call;          (* service calls made so far, oldest first *)
  console : list JsError      (* what console.error has printed *)
}.

(** An asynchronous computation: from a state to an outcome and the state
    it leaves.  A throw keeps the state reached so far. *)
Definition M (A : Type) : Type := State -> Outcome A * State.

Definition mret {A} (a : A) : M A := fun st => (Returned a, st).

Definition mbind {A B} (c : M A) (k : A -> M B) : M B :=
  fun st =>
    match c st with
    | (Returned a, st') => k a st'
    | (Thrown e, st') => (Thrown e, st')
    end.

Definition throw {A} (e : JsError) : M A := fun st => (Thrown e, st).

(** [try { c } catch (error) { h error }] *)
Definition try_catch {A} (c : M A) (h : JsError -> M A) : M A :=
  fun st =>
    match c st with
    | (Returned a, st') => (Returned a, st')
    | (Thrown e, st') => h e st'
    end.

#[global] Instance Monad_M : Monad M :=
  {| ret := @mret; bind := @mbind |}.

#[global] Instance Exc_M : MonadExc JsError M :=
  {| raise := @throw; catch := @try_catch |}.

Definition record (c : Call) : M unit :=
  fun st => (Returned tt, mkState (world st) (calls st ++ [c]) (console st)).

(** [console.error(error)] *)
Definition console_error (e : JsError) : M unit :=
  fun st => (Returned tt, mkState (world st) (calls st) (console st ++ [e])).

(** Run a service that reads or writes the database. *)
Definition on_world {A} (f : World -> Outcome A * World) : M A :=
  fun st =>
    let (r, w) := f (world st) in (r, mkState w (calls st) (console st)).

(** Run a synchronous service that touches no state. *)
Definition sync {A} (r : Outcome A) : M A := fun st => (r, st).
End Effects.

Arguments mkState {World} _ _ _.
Arguments world {World} _.
Arguments calls {World} _.
Arguments console {World} _.
Arguments mret {World A} _ _.
Arguments mbind {World A B} _ _ _.
Arguments throw {World A} _ _.
Arguments try_catch {World A} _ _ _.
Arguments record {World} _ _.
Arguments console_error {World} _ _.
Arguments on_world {World A} _ _.
Arguments sync {World A} _ _.

(** ** The services *)

(** [userService] and [sessionService], which the controller imports. *)
Record Services (World : Type) : Type := mkServices {
  signUpDataValidationError : Body -> option JsError;
  findEmail : JsValue -> World -> Outcome (option User) * World;
  createUser : Body -> World -> Outcome unit * World;
  isPasswordValid : JsValue -> string -> Outcome bool;
  createNewSession : Z -> World -> Outcome string * World
}.
Arguments mkServices {World} _ _ _ _ _.
Arguments signUpDataValidationError {World} _ _.
Arguments findEmail {World} _ _ _.
Arguments createUser {World} _ _ _.
Arguments isPasswordValid {World} _ _ _.
Arguments createNewSession {World} _ _ _.

(** ** The controller *)

Section Controller.
Variable World : Type.
Variable svc : Services World.

Definition call_findEmail (email : JsValue) : M World (option User) :=
  record (CallFindEmail email) ;; on_world (findEmail svc email).

Definition call_createUser (data : Body) : M World unit :=
  record (CallCreateUser data) ;; on_world (createUser svc data).

Definition call_isPasswordValid (pw : JsValue) (hash : string) : M World bool :=
  record (CallIsPasswordValid pw hash) ;; sync (isPasswordValid svc pw hash).

Definition call_createNewSession (userId : Z) : M World string :=
  record (CallCreateNewSession userId) ;; on_world (createNewSession svc userId).

(** The handler of every [catch] block: log the error, answer 500. *)
Definition internal_error (error : JsError) : M World Response :=
  console_error error ;; ret (sendStatus 500).

(** The [try] block of [signUp]. *)
Definition signUp_try (reqBody : Body) : M World Response :=
  user <- call_findEmail (prop reqBody "email") ;;
  match user with
  | Some _ => ret (sendStatus 409)
  | None =>
      call_createUser reqBody ;;
      ret (sendStatus 201)
  end.

Definition signUp (reqBody : Body) : M World Response :=
  match signUpDataValidationError svc reqBody with
  | Some validationError => ret (send 400 (Text (message validationError)))
  | None => catch (signUp_try reqBody) internal_error
  end.

(** The [try] block of [signIn]. *)
Definition signIn_try (email password : JsValue) : M World Response :=
  user <- call_findEmail email ;;
  match user with
  | None => ret (sendStatus 404)
  | Some user =>
      valid <- call_isPasswordValid password (User.password user) ;;
      if negb valid then ret (sendStatus 401)
      else
        token <- call_createNewSession (User.id user) ;;
        ret (send 200 (Json [("name", JStr (User.name user));
                             ("token", JStr token)]))
  end.

Definition signIn (reqBody : Body) : M World Response :=
  let email := prop reqBody "email" in
  let password := prop reqBody "password" in
  if negb (truthy email) || negb (truthy password) then ret (sendStatus 400)
  else catch (signIn_try email password) internal_error.

End Controller.

Arguments call_findEmail {World} _ _ _.
Arguments call_createUser {World} _ _ _.
Arguments call_isPasswordValid {World} _ _ _ _.
Arguments call_createNewSession {World} _ _ _.
Arguments internal_error {World} _ _.
Arguments signUp_try {World} _ _ _.
Arguments signUp {World} _ _ _.
Arguments signIn_try {World} _ _ _ _.
Arguments signIn {World} _ _ _.

(** The state a request finds: the database as it is, nothing called or
    printed yet. *)
Definition fresh {World} (w : World) : State World := mkState w [] [].

(** The response of a handler run from a state, when it answers. *)
Definition answer {World} (c : M World Response) (st : State World) : option Response :=
  match fst (c st) with
  | Returned r => Some r
  | Thrown _ => None
  end.

(** The service calls a handler adds to the log of the state it starts in. *)
Definition made {World} (c : M World Response) (st : State World) : list Call :=
  skipn (length (calls st)) (calls (snd (c st))).

(** ** The validator and the stores, after the specification *)

(** Modelled from the spec: [userService.signUpDataValidationError] is not
    among the sources.  Section 4.4, sign-up step 1, asks that [name],
    [email] and [password] are all present and well-formed: non-empty and,
    for the email, email-shaped.  A field is non-empty when it is a string
    other than the empty one. *)
Definition nonEmptyString (v : JsValue) : bool :=
  match v with
  | JStr s => negb (String.eqb s "")
  | _ => false
  end.

(** Modelled from the spec: email-shaped (section 4.4, sign-up step 1), read
    as some text, an at sign, some text. *)
Definition emailShaped (v : JsValue) : bool :=
  match v with
  | JStr s =>
      match index 0 "@" s with
      | Some i => ((0 <? i) && (S i <? String.length s))%nat
      | None => false
      end
  | _ => false
  end.

(** Modelled from the spec: the request shape of section 4.4, sign-up
    step 1. *)
Definition wellFormed (reqBody : Body) : bool :=
  nonEmptyString (prop reqBody "name")
  && emailShaped (prop reqBody "email")
  && nonEmptyString (prop reqBody "password").

(** Modelled from the spec: a body is malformed when it has not that shape. *)
Definition malformed (reqBody : Body) : bool := negb (wellFormed reqBody).

(** Modelled from the spec: the validator, which is not among the sources,
    does its job when it reports every malformed body (section 4.4, sign-up
    step 1: malformed gives a validation error). *)
Definition rejects_malformed {World} (svc : Services World) : Prop :=
  forall reqBody, malformed reqBody = true ->
    signUpDataValidationError svc reqBody <> None.

(** The error of a violated uniqueness constraint on [users.email]. *)
Definition conflictError : JsError :=
  mkError "ConflictError" "duplicate key value violates unique constraint users_email_key".

(** The services and the database are not among the sources.  [Mem] is an
    in-memory Credential Store, Password Hasher and Session Store after
    sections 4.1 to 4.3 of the specification, on which the handlers run. *)
Module Mem.
(** Modelled from the spec: the database, the [User] records of section 3
    and the [Session] records as pairs of a token and a user id. *)
Record World : Type := mkWorld {
  users : list User;
  sessions : list (string * Z)
}.

Definition empty : World := mkWorld [] [].

(** Modelled from the spec: the hash of section 4.1, here a tagged copy of
    the plaintext that [isPasswordValid] recognises. *)
Definition hash (plaintext : string) : string := "$2b$10$" ++ plaintext.

(** Modelled from the spec: exact-match lookup by email (section 4.2). *)
Definition lookup (e : string) (us : list User) : option User :=
  find (fun u => String.eqb (User.email u) e) us.

(** Modelled from the spec: the validator of section 4.4, sign-up step 1. *)
Definition signUpDataValidationError (reqBody : Body) : option JsError :=
  if wellFormed reqBody then None
  else Some (mkError "ValidationError" "invalid sign-up data").

(** Modelled from the spec: [findByEmail] of section 4.2; absence is
    answered, not thrown. *)
Definition findEmail (email : JsValue) (w : World) : Outcome (option User) * World :=
  match email with
  | JStr e => (Returned (lookup e (users w)), w)
  | _ => (Returned None, w)
  end.

(** Modelled from the spec: [create] of section 4.2; the store itself guards
    the uniqueness of the email and fails with the conflict error. *)
Definition createUser (data : Body) (w : World) : Outcome unit * World :=
  match prop data "name", prop data "email", prop data "password" with
  | JStr n, JStr e, JStr p =>
      match lookup e (users w) with
      | Some _ => (Thrown conflictError, w)
      | None =>
          let row := User.mk (1 + Z.of_nat (length (users w))) n e (hash p) in
          (Returned tt, mkWorld (users w ++ [row]) (sessions w))
      end
  | _, _, _ => (Thrown (mkError "error" "null value violates not-null constraint"), w)
  end.

(** Modelled from the spec: [verify] of section 4.1. *)
Definition isPasswordValid (pw : JsValue) (hashed : string) : Outcome bool :=
  match pw with
  | JStr p => Returned (String.eqb (hash p) hashed)
  | _ => Thrown (mkError "Error" "data must be a string or Buffer")
  end.

(** Modelled from the spec: the token of a new session (section 4.3), here
    numbered by the sessions that exist. *)
Definition newToken (w : World) : string :=
  "token-" ++ NilZero.string_of_uint (Nat.to_uint (length (sessions w))).

(** Modelled from the spec: [create] of section 4.3. *)
Definition createNewSession (userId : Z) (w : World) : Outcome string * World :=
  let token := newToken w in
  (Returned token, mkWorld (users w) (sessions w ++ [(token, userId)])).

Definition services : Services World :=
  mkServices signUpDataValidationError findEmail createUser isPasswordValid
             createNewSession.

(** Modelled from the spec: the race of section 5.  The same services when a rival request inserts [rival] between this
    request's lookup and its insert. *)
Definition findEmail_then_rival (rival : User) (email : JsValue) (w : World)
  : Outcome (option User) * World :=
  let (r, w') := findEmail email w in
  (r, mkWorld (users w' ++ [rival]) (sessions w')).

Definition raced (rival : User) : Services World :=
  mkServices signUpDataValidationError (findEmail_then_rival rival) createUser
             isPasswordValid createNewSession.

(** Modelled from the spec: a storage-layer fault (section 4.5).  The same
    services with the database unreachable. *)
Definition connectionRefused : JsError := mkError "Error" "connect ECONNREFUSED 127.0.0.1:5432".

Definition down : Services World :=
  mkServices signUpDataValidationError
             (fun _ w => (Thrown connectionRefused, w))
             (fun _ w => (Thrown connectionRefused, w))
             isPasswordValid
             (fun _ w => (Thrown connectionRefused, w)).

(** A registered user and the bodies of the requests used below. *)
Definition alice : User := User.mk 1 "A" "a@x.com" (hash "p1").
Definition registered : World := mkWorld [alice] [].

Definition signUpBody : Body :=
  [("name", JStr "A"); ("email", JStr "a@x.com"); ("password", JStr "p1");
   ("repeatPassword", JStr "p1")].
Definition signInBody : Body := [("email", JStr "a@x.com"); ("password", JStr "p1")].

(** Sign-in bodies: an unregistered email and no password; the registered
    email with a wrong and with an empty password. *)
Definition ghostBody : Body := [("email", JStr "ghost@x.com")].
Definition ghostFullBody : Body := [("email", JStr "ghost@x.com"); ("password", JStr "p1")].
Definition wrongPasswordBody : Body := [("email", JStr "a@x.com"); ("password", JStr "p2")].
Definition emptyPasswordBody : Body := [("email", JStr "a@x.com"); ("password", JStr "")].

(** Sign-up bodies: the registered email without a name; no email at all. *)
Definition noNameBody : Body :=
  [("email", JStr "a@x.com"); ("password", JStr "p1"); ("repeatPassword", JStr "p1")].
Definition noEmailBody : Body :=
  [("name", JStr "A"); ("password", JStr "p1"); ("repeatPassword", JStr "p1")].

(** The rival whose sign-up with the same email commits first. *)
Definition rival : User := User.mk 1 "B" "a@x.com" (hash "p2").
End Mem.

(** ** The handlers, call by call *)

Section Runs.
Context {World : Type} (svc : Services World).

(** The state after the services were called with [cs], the database became
    [w] and [es] was printed. *)
Definition after (st : State World) (w : World) (cs : list Call) (es : list JsError)
  : State World :=
  mkState w (calls st ++ cs) (console st ++ es).

(** [signIn] written out as the cases of its service calls. *)
Definition signIn_cases (reqBody : Body) (st : State World) : Outcome Response * State World :=
  let email := prop reqBody "email" in
  let password := prop reqBody "password" in
  if negb (truthy email) || negb (truthy password) then (Returned (sendStatus 400), st)
  else
    match findEmail svc email (world st) with
    | (Thrown e, w1) =>
        (Returned (sendStatus 500), after st w1 [CallFindEmail email] [e])
    | (Returned None, w1) =>
        (Returned (sendStatus 404), after st w1 [CallFindEmail email] [])
    | (Returned (Some user), w1) =>
        let verify := CallIsPasswordValid password (User.password user) in
        match isPasswordValid svc password (User.password user) with
        | Thrown e =>
            (Returned (sendStatus 500), after st w1 [CallFindEmail email; verify] [e])
        | Returned false =>
            (Returned (sendStatus 401), after st w1 [CallFindEmail email; verify] [])
        | Returned true =>
            let create := CallCreateNewSession (User.id user) in
            match createNewSession svc (User.id user) w1 with
            | (Thrown e, w2) =>
                (Returned (sendStatus 500),
                 after st w2 [CallFindEmail email; verify; create] [e])
            | (Returned token, w2) =>
                (Returned (send 200 (Json [("name", JStr (User.name user));
                                           ("token", JStr token)])),
                 after st w2 [CallFindEmail email; verify; create] [])
            end
        end
    end.

(** [signUp] written out as the cases of its service calls. *)
Definition signUp_cases (reqBody : Body) (st : State World) : Outcome Response * State World :=
  match signUpDataValidationError svc reqBody with
  | Some validationError => (Returned (send 400 (Text (message validationError))), st)
  | None =>
      let email := prop reqBody "email" in
      match findEmail svc email (world st) with
      | (Thrown e, w1) =>
          (Returned (sendStatus 500), after st w1 [CallFindEmail email] [e])
      | (Returned (Some _), w1) =>
          (Returned (sendStatus 409), after st w1 [CallFindEmail email] [])
      | (Returned None, w1) =>
          match createUser svc reqBody w1 with
          | (Thrown e, w2) =>
              (Returned (sendStatus 500),
               after st w2 [CallFindEmail email; CallCreateUser reqBody] [e])
          | (Returned _, w2) =>
              (Returned (sendStatus 201),
               after st w2 [CallFindEmail email; CallCreateUser reqBody] [])
          end
      end
  end.
End Runs.

(** ** Store faults *)

Inductive Endpoint : Type := SignUp | SignIn.

Definition handler {World} (svc : Services World) (ep : Endpoint) : Body -> M World Response :=
  match ep with
  | SignUp => signUp svc
  | SignIn => signIn svc
  end.

(** [StoreFault svc ep reqBody st e]: in the request [reqBody] to [ep],
    handled from the state [st], a call on a store is made and throws [e]. *)
Inductive StoreFault {World} (svc : Services World)
  : Endpoint -> Body -> State World -> JsError -> Prop :=
| signUp_lookup_throws reqBody st e w1 :
    signUpDataValidationError svc reqBody = None ->
    findEmail svc (prop reqBody "email") (world st) = (Thrown e, w1) ->
    StoreFault svc SignUp reqBody st e
| signUp_insert_throws reqBody st e w1 w2 :
    signUpDataValidationError svc reqBody = None ->
    findEmail svc (prop reqBody "email") (world st) = (Returned None, w1) ->
    createUser svc reqBody w1 = (Thrown e, w2) ->
    StoreFault svc SignUp reqBody st e
| signIn_lookup_throws reqBody st e w1 :
    truthy (prop reqBody "email") = true ->
    truthy (prop reqBody "password") = true ->
    findEmail svc (prop reqBody "email") (world st) = (Thrown e, w1) ->
    StoreFault svc SignIn reqBody st e
| signIn_session_throws reqBody st e user w1 w2 :
    truthy (prop reqBody "email") = true ->
    truthy (prop reqBody "password") = true ->
    findEmail svc (prop reqBody "email") (world st) = (Returned (Some user), w1) ->
    isPasswordValid svc (prop reqBody "password") (User.password user) = Returned true ->
    createNewSession svc (User.id user) w1 = (Thrown e, w2) ->
    StoreFault svc SignIn reqBody st e.

(** ** Proof steps *)

(** Close a goal that compares two final states up to the bracketing of
    the logs. *)
Ltac same_state :=
  unfold after, mret; cbn; rewrite <- ?app_assoc, ?app_nil_r; reflexivity.

(** Expose the service calls of a handler. *)
Ltac expose :=
  cbn; unfold try_catch, mbind, signIn_try, signUp_try, on_world; cbn.

(** Rewrite a handler into its cases, with the equations of the rewrite
    database [handlers]. *)
Create Rewrite HintDb handlers.

Ltac by_cases :=
  autorewrite with handlers; unfold signIn_cases, signUp_cases.

(** Split a goal on the outcome of every service call it mentions, keeping
    the equation of each outcome. *)
Ltac split_cases :=
  repeat match goal with
  | |- context [signUpDataValidationError ?s ?b] =>
      destruct (signUpDataValidationError s b) as [?validationError|] eqn:?Hvalid
  | |- context [findEmail ?s ?a ?x] =>
      destruct (findEmail s a x) as [[[?user|]|?e] ?w1] eqn:?Hfind
  | |- context [isPasswordValid ?s ?a ?h] =>
      destruct (isPasswordValid s a h) as [[|]|?e] eqn:?Hverify
  | |- context [createNewSession ?s ?a ?x] =>
      destruct (createNewSession s a x) as [[?token|?e] ?w2] eqn:?Hsession
  | |- context [createUser ?s ?a ?x] =>
      destruct (createUser s a x) as [[[]|?e] ?w2] eqn:?Hinsert
  end.

(** Read the response and the final state off the equation of an answered
    request. *)
Ltac answered H :=
  injection H as <- <-.

(** Split a goal on the truthiness of the email and of the password. *)
Ltac split_fields reqBody :=
  destruct (truthy (prop reqBody "email")) eqn:?Hemail;
  destruct (truthy (prop reqBody "password")) eqn:?Hpassword;
  cbn [negb orb].

(** ** The scenario of the specification, run on the in-memory stores *)

Example scenario_sign_up :
  answer (signUp Mem.services Mem.signUpBody) (fresh Mem.empty) = Some (sendStatus 201).
Proof. reflexivity. Qed.

Example scenario_sign_up_again :
  answer (signUp Mem.services Mem.signUpBody) (fresh Mem.registered) = Some (sendStatus 409).
Proof. reflexivity. Qed.

Example scenario_sign_in :
  answer (signIn Mem.services Mem.signInBody) (fresh Mem.registered)
  = Some (send 200 (Json [("name", JStr "A"); ("token", JStr "token-0")])).
Proof. reflexivity. Qed.


(** ** The handlers agree with their case descriptions *)

Lemma after_nil {World} (st : State World) : after st (world st) [] [] = st.
Proof. destruct st; unfold after; cbn. now rewrite !app_nil_r. Qed.

Lemma signIn_unfold {World} (svc : Services World) reqBody st :
  signIn svc reqBody st = signIn_cases svc reqBody st.
Proof.
  unfold signIn, signIn_cases.
  destruct (negb (truthy (prop reqBody "email")) || negb (truthy (prop reqBody "password")));
    [reflexivity|].
  expose.
  destruct (findEmail svc (prop reqBody "email") (world st)) as [[[user|]|e] w1];
    try same_state.
  cbn.
  destruct (isPasswordValid svc (prop reqBody "password") (User.password user))
    as [[|]|e]; try same_state.
  cbn.
  destruct (createNewSession svc (User.id user) w1) as [[token|e] w2]; same_state.
Qed.

Lemma signUp_unfold {World} (svc : Services World) reqBody st :
  signUp svc reqBody st = signUp_cases svc reqBody st.
Proof.
  unfold signUp, signUp_cases.
  destruct (signUpDataValidationError svc reqBody) as [validationError|];
    [reflexivity|].
  expose.
  destruct (findEmail svc (prop reqBody "email") (world st)) as [[[user|]|e] w1];
    try same_state.
  cbn.
  destruct (createUser svc reqBody w1) as [[[]|e] w2]; same_state.
Qed.

Lemma made_after {World} (c : M World Response) st w cs es :
  snd (c st) = after st w cs es -> made c st = cs.
Proof.
  intros H. unfold made. rewrite H. cbn.
  rewrite skipn_app, skipn_all, Nat.sub_diag. reflexivity.
Qed.

Lemma made_nothing {World} (c : M World Response) st :
  snd (c st) = st -> made c st = [].
Proof.
  intros H. apply (made_after c st (world st) [] []).
  now rewrite after_nil.
Qed.

#[local] Hint Rewrite @signIn_unfold @signUp_unfold : handlers.

(** Both handlers always answer: no error escapes them. *)
Lemma signIn_answers {World} (svc : Services World) reqBody st :
  exists r st', signIn svc reqBody st = (Returned r, st').
Proof.
  by_cases.
  destruct (negb (truthy (prop reqBody "email")) || negb (truthy (prop reqBody "password")));
    [eauto|].
  destruct (findEmail svc (prop reqBody "email") (world st)) as [[[user|]|e] w1]; eauto.
  destruct (isPasswordValid svc (prop reqBody "password") (User.password user))
    as [[|]|e]; eauto.
  destruct (createNewSession svc (User.id user) w1) as [[token|e] w2]; eauto.
Qed.

Lemma signUp_answers {World} (svc : Services World) reqBody st :
  exists r st', signUp svc reqBody st = (Returned r, st').
Proof.
  by_cases.
  destruct (signUpDataValidationError svc reqBody) as [validationError|]; [eauto|].
  destruct (findEmail svc (prop reqBody "email") (world st)) as [[[user|]|e] w1]; eauto.
  destruct (createUser svc reqBody w1) as [[[]|e] w2]; eauto.
Qed.

(** ** Sign-in *)

(** C1. A sign-in request calls [sessionService.createNewSession] only with
    the id of the user that [findEmail] returned for the email of the request,
    only when [isPasswordValid] accepted the password of the request against
    the hash of that user, and only after these two calls: the calls of the
    request are then the lookup, the verification and the session creation, in
    this order.  An unknown email or a refused password creates no session. *)
Theorem signIn_creates_session_only_for_verified_user
  {World} (svc : Services World) reqBody st userId :
  In (CallCreateNewSession userId) (made (signIn svc reqBody) st) ->
  exists user w1,
    findEmail svc (prop reqBody "email") (world st) = (Returned (Some user), w1)
    /\ userId = User.id user
    /\ isPasswordValid svc (prop reqBody "password") (User.password user) = Returned true
    /\ made (signIn svc reqBody) st
       = [CallFindEmail (prop reqBody "email");
          CallIsPasswordValid (prop reqBody "password") (User.password user);
          CallCreateNewSession userId].
Proof.
  intros Hin.
  assert (Hrun := signIn_unfold svc reqBody st). unfold signIn_cases in Hrun.
  destruct (negb (truthy (prop reqBody "email")) || negb (truthy (prop reqBody "password"))).
  { rewrite (made_nothing (signIn svc reqBody) st) in Hin by now rewrite Hrun.
    destruct Hin. }
  destruct (findEmail svc (prop reqBody "email") (world st)) as [[[user|]|e] w1].
  - destruct (isPasswordValid svc (prop reqBody "password") (User.password user))
      as [[|]|e] eqn:Hverify.
    + assert (Hmade : made (signIn svc reqBody) st
                      = [CallFindEmail (prop reqBody "email");
                         CallIsPasswordValid (prop reqBody "password") (User.password user);
                         CallCreateNewSession (User.id user)]).
      { destruct (createNewSession svc (User.id user) w1) as [[token|e] w2];
          eapply made_after; rewrite Hrun; reflexivity. }
      rewrite Hmade in Hin. cbn in Hin.
      destruct Hin as [H|[H|[H|[]]]]; try discriminate.
      injection H as <-.
      exists user, w1. repeat split; assumption.
    + rewrite (made_after (signIn svc reqBody) st w1
                 [CallFindEmail (prop reqBody "email");
                  CallIsPasswordValid (prop reqBody "password") (User.password user)]
                 []) in Hin by now rewrite Hrun.
      cbn in Hin. destruct Hin as [H|[H|[]]]; discriminate.
    + rewrite (made_after (signIn svc reqBody) st w1
                 [CallFindEmail (prop reqBody "email");
                  CallIsPasswordValid (prop reqBody "password") (User.password user)]
                 [e]) in Hin by now rewrite Hrun.
      cbn in Hin. destruct Hin as [H|[H|[]]]; discriminate.
  - rewrite (made_after (signIn svc reqBody) st w1
               [CallFindEmail (prop reqBody "email")] []) in Hin
      by now rewrite Hrun.
    cbn in Hin. destruct Hin as [H|[]]; discriminate.
  - rewrite (made_after (signIn svc reqBody) st w1
               [CallFindEmail (prop reqBody "email")] [e]) in Hin
      by now rewrite Hrun.
    cbn in Hin. destruct Hin as [H|[]]; discriminate.
Qed.

Lemma signIn_creates_session_only_for_verified_user_witness :
  In (CallCreateNewSession 1) (made (signIn Mem.services Mem.signInBody) (fresh Mem.registered))
  /\ exists user w1,
       findEmail Mem.services (prop Mem.signInBody "email") (world (fresh Mem.registered))
       = (Returned (Some user), w1)
       /\ 1 = User.id user
       /\ isPasswordValid Mem.services (prop Mem.signInBody "password") (User.password user)
          = Returned true
       /\ made (signIn Mem.services Mem.signInBody) (fresh Mem.registered)
          = [CallFindEmail (prop Mem.signInBody "email");
             CallIsPasswordValid (prop Mem.signInBody "password") (User.password user);
             CallCreateNewSession 1].
Proof.
  split.
  - vm_compute. right. right. left. reflexivity.
  - apply (signIn_creates_session_only_for_verified_user
             Mem.services Mem.signInBody (fresh Mem.registered) 1).
    vm_compute. right. right. left. reflexivity.
Defined.

(** C2, as stated, fails: a sign-in request without a password whose email
    matches no user record is answered 400, not 404. *)
Lemma signIn_unknown_email_without_password_is_400 :
  findEmail Mem.services (prop Mem.ghostBody "email") Mem.empty = (Returned None, Mem.empty)
  /\ answer (signIn Mem.services Mem.ghostBody) (fresh Mem.empty) = Some (sendStatus 400)
  /\ option_map status (answer (signIn Mem.services Mem.ghostBody) (fresh Mem.empty))
     <> Some 404.
Proof. repeat split. discriminate. Qed.

(** C2, amended.  A sign-in request whose email matches no user record is
    answered 404 when its email and password are both present and non-empty,
    after the lookup alone; with or without a password, it is answered and
    its status is never 401. *)
Theorem signIn_unknown_email_is_404
  {World} (svc : Services World) reqBody st w1 :
  findEmail svc (prop reqBody "email") (world st) = (Returned None, w1) ->
  (truthy (prop reqBody "email") = true ->
   truthy (prop reqBody "password") = true ->
   signIn svc reqBody st
   = (Returned (sendStatus 404), after st w1 [CallFindEmail (prop reqBody "email")] []))
  /\ exists r, answer (signIn svc reqBody) st = Some r /\ status r <> 401.
Proof.
  intros Hfind. split.
  - intros Hemail Hpassword. by_cases.
    rewrite Hemail, Hpassword, Hfind. reflexivity.
  - unfold answer. by_cases. rewrite Hfind.
    destruct (negb (truthy (prop reqBody "email")) || negb (truthy (prop reqBody "password")));
      cbn; eexists; (split; [reflexivity | discriminate]).
Qed.

Lemma signIn_unknown_email_is_404_witness :
  findEmail Mem.services (prop Mem.ghostFullBody "email") (world (fresh Mem.registered))
  = (Returned None, Mem.registered)
  /\ (truthy (prop Mem.ghostFullBody "email") = true ->
      truthy (prop Mem.ghostFullBody "password") = true ->
      signIn Mem.services Mem.ghostFullBody (fresh Mem.registered)
      = (Returned (sendStatus 404),
         after (fresh Mem.registered) Mem.registered
           [CallFindEmail (prop Mem.ghostFullBody "email")] []))
  /\ exists r, answer (signIn Mem.services Mem.ghostFullBody) (fresh Mem.registered) = Some r
               /\ status r <> 401.
Proof.
  split; [reflexivity|].
  apply (signIn_unknown_email_is_404 Mem.services Mem.ghostFullBody (fresh Mem.registered)).
  reflexivity.
Defined.

(** C3, as stated, fails: for a registered email, the empty password fails
    verification against the stored hash, and the request is answered 400,
    not 401. *)
Lemma signIn_registered_email_empty_password_is_400 :
  findEmail Mem.services (prop Mem.emptyPasswordBody "email") Mem.registered
  = (Returned (Some Mem.alice), Mem.registered)
  /\ isPasswordValid Mem.services (prop Mem.emptyPasswordBody "password")
       (User.password Mem.alice) = Returned false
  /\ answer (signIn Mem.services Mem.emptyPasswordBody) (fresh Mem.registered)
     = Some (sendStatus 400)
  /\ option_map status (answer (signIn Mem.services Mem.emptyPasswordBody) (fresh Mem.registered))
     <> Some 401.
Proof. repeat split. discriminate. Qed.

(** C3, amended.  A sign-in request whose email matches a registered user
    and whose password fails verification against the hash of that user is
    answered 401 when its email and password are both present and non-empty,
    after the lookup and the verification; whatever its password, it is
    answered and its status is never 404. *)
Theorem signIn_wrong_password_is_401
  {World} (svc : Services World) reqBody st user w1 :
  findEmail svc (prop reqBody "email") (world st) = (Returned (Some user), w1) ->
  isPasswordValid svc (prop reqBody "password") (User.password user) = Returned false ->
  (truthy (prop reqBody "email") = true ->
   truthy (prop reqBody "password") = true ->
   signIn svc reqBody st
   = (Returned (sendStatus 401),
      after st w1 [CallFindEmail (prop reqBody "email");
                   CallIsPasswordValid (prop reqBody "password") (User.password user)] []))
  /\ exists r, answer (signIn svc reqBody) st = Some r /\ status r <> 404.
Proof.
  intros Hfind Hverify. split.
  - intros Hemail Hpassword. by_cases.
    rewrite Hemail, Hpassword, Hfind, Hverify. reflexivity.
  - unfold answer. by_cases. rewrite Hfind, Hverify.
    destruct (negb (truthy (prop reqBody "email")) || negb (truthy (prop reqBody "password")));
      cbn; eexists; (split; [reflexivity | discriminate]).
Qed.

Lemma signIn_wrong_password_is_401_witness :
  findEmail Mem.services (prop Mem.wrongPasswordBody "email") (world (fresh Mem.registered))
  = (Returned (Some Mem.alice), Mem.registered)
  /\ isPasswordValid Mem.services (prop Mem.wrongPasswordBody "password")
       (User.password Mem.alice) = Returned false
  /\ (truthy (prop Mem.wrongPasswordBody "email") = true ->
      truthy (prop Mem.wrongPasswordBody "password") = true ->
      signIn Mem.services Mem.wrongPasswordBody (fresh Mem.registered)
      = (Returned (sendStatus 401),
         after (fresh Mem.registered) Mem.registered
           [CallFindEmail (prop Mem.wrongPasswordBody "email");
            CallIsPasswordValid (prop Mem.wrongPasswordBody "password")
              (User.password Mem.alice)] []))
  /\ exists r, answer (signIn Mem.services Mem.wrongPasswordBody) (fresh Mem.registered) = Some r
               /\ status r <> 404.
Proof.
  split; [reflexivity|]. split; [reflexivity|].
  apply (signIn_wrong_password_is_401 Mem.services Mem.wrongPasswordBody
           (fresh Mem.registered) Mem.alice Mem.registered); reflexivity.
Defined.

(** C5. A sign-in request that passes validation (email and password present
    and non-empty), whose email lookup returns a user and whose password that
    user's hash verifies, is answered with status 200 and the body made of
    exactly the [name] of that user and the [token] that
    [createNewSession] returned for the id of that user. *)
Theorem signIn_success_is_200_name_token
  {World} (svc : Services World) reqBody st user w1 token w2 :
  truthy (prop reqBody "email") = true ->
  truthy (prop reqBody "password") = true ->
  findEmail svc (prop reqBody "email") (world st) = (Returned (Some user), w1) ->
  isPasswordValid svc (prop reqBody "password") (User.password user) = Returned true ->
  createNewSession svc (User.id user) w1 = (Returned token, w2) ->
  signIn svc reqBody st
  = (Returned (mkResponse 200 (Json [("name", JStr (User.name user)); ("token", JStr token)])),
     after st w2 [CallFindEmail (prop reqBody "email");
                  CallIsPasswordValid (prop reqBody "password") (User.password user);
                  CallCreateNewSession (User.id user)] []).
Proof.
  intros Hemail Hpassword Hfind Hverify Hsession. by_cases.
  rewrite Hemail, Hpassword, Hfind, Hverify, Hsession. reflexivity.
Qed.

Lemma signIn_success_is_200_name_token_witness :
  signIn Mem.services Mem.signInBody (fresh Mem.registered)
  = (Returned (mkResponse 200 (Json [("name", JStr "A"); ("token", JStr "token-0")])),
     after (fresh Mem.registered) (Mem.mkWorld [Mem.alice] [("token-0", 1)])
       [CallFindEmail (JStr "a@x.com");
        CallIsPasswordValid (JStr "p1") (Mem.hash "p1");
        CallCreateNewSession 1] []).
Proof.
  apply (signIn_success_is_200_name_token Mem.services Mem.signInBody
           (fresh Mem.registered) Mem.alice Mem.registered "token-0"
           (Mem.mkWorld [Mem.alice] [("token-0", 1)])); reflexivity.
Defined.

(** C10. A sign-in request whose email or password is the empty string is
    answered 400 and leaves the state as it found it: no service is called,
    the credential store is not consulted, and the answer is neither 404 nor
    401.  It is the answer, and the state, of a request in which a field is
    absent. *)
Theorem signIn_empty_field_is_400
  {World} (svc : Services World) reqBody st :
  prop reqBody "email" = JStr "" \/ prop reqBody "password" = JStr "" ->
  signIn svc reqBody st = (Returned (sendStatus 400), st)
  /\ made (signIn svc reqBody) st = []
  /\ forall absent,
       prop absent "email" = JUndefined \/ prop absent "password" = JUndefined ->
       signIn svc absent st = signIn svc reqBody st.
Proof.
  intros Hempty.
  assert (Hrun : signIn svc reqBody st = (Returned (sendStatus 400), st)).
  { unfold signIn. destruct Hempty as [-> | ->]; cbn; [|rewrite orb_true_r]; reflexivity. }
  split; [exact Hrun|]. split.
  - apply made_nothing. now rewrite Hrun.
  - intros absent Habsent. rewrite Hrun. unfold signIn.
    destruct Habsent as [-> | ->]; cbn; [|rewrite orb_true_r]; reflexivity.
Qed.

Lemma signIn_empty_field_is_400_witness :
  (prop Mem.emptyPasswordBody "email" = JStr ""
   \/ prop Mem.emptyPasswordBody "password" = JStr "")
  /\ signIn Mem.services Mem.emptyPasswordBody (fresh Mem.registered)
     = (Returned (sendStatus 400), fresh Mem.registered)
  /\ made (signIn Mem.services Mem.emptyPasswordBody) (fresh Mem.registered) = []
  /\ forall absent,
       prop absent "email" = JUndefined \/ prop absent "password" = JUndefined ->
       signIn Mem.services absent (fresh Mem.registered)
       = signIn Mem.services Mem.emptyPasswordBody (fresh Mem.registered).
Proof.
  split; [right; reflexivity|].
  apply (signIn_empty_field_is_400 Mem.services Mem.emptyPasswordBody (fresh Mem.registered)).
  right; reflexivity.
Defined.

(** ** Sign-up *)

(** No case of [signUp] calls the session service, and none inserts unless
    the lookup returned no user. *)
Lemma signUp_calls {World} (svc : Services World) reqBody st :
  made (signUp svc reqBody) st = []
  \/ made (signUp svc reqBody) st = [CallFindEmail (prop reqBody "email")]
  \/ (made (signUp svc reqBody) st
      = [CallFindEmail (prop reqBody "email"); CallCreateUser reqBody]
      /\ exists w1, findEmail svc (prop reqBody "email") (world st) = (Returned None, w1)).
Proof.
  assert (Hrun := signUp_unfold svc reqBody st). unfold signUp_cases in Hrun.
  destruct (signUpDataValidationError svc reqBody) as [validationError|].
  { left. apply made_nothing. now rewrite Hrun. }
  destruct (findEmail svc (prop reqBody "email") (world st)) as [[[user|]|e] w1].
  - right; left. eapply made_after. rewrite Hrun. reflexivity.
  - right; right. split; [|now exists w1].
    destruct (createUser svc reqBody w1) as [[[]|e] w2];
      eapply made_after; rewrite Hrun; reflexivity.
  - right; left. eapply made_after. rewrite Hrun. reflexivity.
Qed.

(** C4, as stated, fails: when a rival request inserts the same email
    between the lookup and the insert, the insert throws the uniqueness
    conflict and the request is answered 500, not 409. *)
Lemma signUp_insert_conflict_is_500 :
  signUpDataValidationError (Mem.raced Mem.rival) Mem.signUpBody = None
  /\ findEmail (Mem.raced Mem.rival) (prop Mem.signUpBody "email") Mem.empty
     = (Returned None, Mem.mkWorld [Mem.rival] [])
  /\ createUser (Mem.raced Mem.rival) Mem.signUpBody (Mem.mkWorld [Mem.rival] [])
     = (Thrown conflictError, Mem.mkWorld [Mem.rival] [])
  /\ answer (signUp (Mem.raced Mem.rival) Mem.signUpBody) (fresh Mem.empty)
     = Some (sendStatus 500)
  /\ option_map status (answer (signUp (Mem.raced Mem.rival) Mem.signUpBody) (fresh Mem.empty))
     <> Some 409.
Proof. repeat split. discriminate. Qed.

(** C4, amended.  During sign-up, when the lookup found no user and the
    insert throws, a uniqueness conflict included, the handler prints the
    error and answers 500 as for any other fault; the earlier lookup is the
    only source of a 409. *)
Theorem signUp_insert_throw_is_500
  {World} (svc : Services World) reqBody st w1 e w2 :
  signUpDataValidationError svc reqBody = None ->
  findEmail svc (prop reqBody "email") (world st) = (Returned None, w1) ->
  createUser svc reqBody w1 = (Thrown e, w2) ->
  signUp svc reqBody st
  = (Returned (sendStatus 500),
     after st w2 [CallFindEmail (prop reqBody "email"); CallCreateUser reqBody] [e]).
Proof.
  intros Hvalid Hfind Hinsert. by_cases.
  rewrite Hvalid, Hfind, Hinsert. reflexivity.
Qed.

Lemma signUp_insert_throw_is_500_witness :
  signUp (Mem.raced Mem.rival) Mem.signUpBody (fresh Mem.empty)
  = (Returned (sendStatus 500),
     after (fresh Mem.empty) (Mem.mkWorld [Mem.rival] [])
       [CallFindEmail (prop Mem.signUpBody "email"); CallCreateUser Mem.signUpBody]
       [conflictError]).
Proof.
  apply (signUp_insert_throw_is_500 (Mem.raced Mem.rival) Mem.signUpBody (fresh Mem.empty)
           (Mem.mkWorld [Mem.rival] [])); reflexivity.
Defined.

(** C6, as stated, fails: a sign-up request whose email is already in the
    store but which has no name is answered 400, not 409. *)
Lemma signUp_registered_email_without_name_is_400 :
  findEmail Mem.services (prop Mem.noNameBody "email") Mem.registered
  = (Returned (Some Mem.alice), Mem.registered)
  /\ answer (signUp Mem.services Mem.noNameBody) (fresh Mem.registered)
     = Some (send 400 (Text "invalid sign-up data"))
  /\ option_map status (answer (signUp Mem.services Mem.noNameBody) (fresh Mem.registered))
     <> Some 409.
Proof. repeat split. discriminate. Qed.

(** C6, amended.  A sign-up request whose email is already in the store is
    answered 409 when its body passes validation, and the lookup is then its
    only call; whether or not the body passes validation, the request calls
    neither [createUser] nor the session service, and its status is 400 or
    409. *)
Theorem signUp_registered_email_is_409
  {World} (svc : Services World) reqBody st user w1 :
  findEmail svc (prop reqBody "email") (world st) = (Returned (Some user), w1) ->
  (signUpDataValidationError svc reqBody = None ->
   signUp svc reqBody st
   = (Returned (sendStatus 409), after st w1 [CallFindEmail (prop reqBody "email")] []))
  /\ (forall c, In c (made (signUp svc reqBody) st) -> c = CallFindEmail (prop reqBody "email"))
  /\ exists r, answer (signUp svc reqBody) st = Some r /\ (status r = 400 \/ status r = 409).
Proof.
  intros Hfind. repeat split.
  - intros Hvalid. by_cases. rewrite Hvalid, Hfind. reflexivity.
  - intros c Hin.
    destruct (signUp_calls svc reqBody st) as [H | [H | [_ [w Hnone]]]].
    + rewrite H in Hin. destruct Hin.
    + rewrite H in Hin. destruct Hin as [<-|[]]. reflexivity.
    + rewrite Hfind in Hnone. discriminate.
  - unfold answer. by_cases. rewrite Hfind.
    destruct (signUpDataValidationError svc reqBody); cbn; eexists; split;
      try reflexivity; cbn; auto.
Qed.

Lemma signUp_registered_email_is_409_witness :
  (signUpDataValidationError Mem.services Mem.signUpBody = None ->
   signUp Mem.services Mem.signUpBody (fresh Mem.registered)
   = (Returned (sendStatus 409),
      after (fresh Mem.registered) Mem.registered
        [CallFindEmail (prop Mem.signUpBody "email")] []))
  /\ (forall c, In c (made (signUp Mem.services Mem.signUpBody) (fresh Mem.registered)) ->
                c = CallFindEmail (prop Mem.signUpBody "email"))
  /\ exists r, answer (signUp Mem.services Mem.signUpBody) (fresh Mem.registered) = Some r
               /\ (status r = 400 \/ status r = 409).
Proof.
  apply (signUp_registered_email_is_409 Mem.services Mem.signUpBody (fresh Mem.registered)
           Mem.alice Mem.registered).
  reflexivity.
Defined.

(** C7. With a validator that reports every malformed body, a sign-up
    request whose body is malformed ([name], [email] or [password] absent or
    not well-formed) is answered 400 with the message of the validator and
    leaves the state as it found it: no lookup, no insert, no other call, and
    nothing printed. *)
Theorem signUp_malformed_is_400
  {World} (svc : Services World) reqBody st :
  rejects_malformed svc ->
  malformed reqBody = true ->
  exists validationError,
    signUpDataValidationError svc reqBody = Some validationError
    /\ signUp svc reqBody st
       = (Returned (mkResponse 400 (Text (message validationError))), st)
    /\ made (signUp svc reqBody) st = [].
Proof.
  intros Hvalidator Hmalformed.
  specialize (Hvalidator reqBody Hmalformed).
  destruct (signUpDataValidationError svc reqBody) as [validationError|] eqn:Hv;
    [|contradiction].
  assert (Hrun : signUp svc reqBody st
                 = (Returned (mkResponse 400 (Text (message validationError))), st)).
  { unfold signUp. rewrite Hv. reflexivity. }
  exists validationError. repeat split; [exact Hrun|].
  apply made_nothing. now rewrite Hrun.
Qed.

Lemma signUp_malformed_is_400_witness :
  malformed Mem.noEmailBody = true
  /\ exists validationError,
       signUpDataValidationError Mem.services Mem.noEmailBody = Some validationError
       /\ signUp Mem.services Mem.noEmailBody (fresh Mem.registered)
          = (Returned (mkResponse 400 (Text (message validationError))), fresh Mem.registered)
       /\ made (signUp Mem.services Mem.noEmailBody) (fresh Mem.registered) = [].
Proof.
  split; [reflexivity|].
  apply (signUp_malformed_is_400 Mem.services Mem.noEmailBody (fresh Mem.registered)).
  - intros reqBody Hmalformed. cbn. unfold Mem.signUpDataValidationError.
    unfold malformed in Hmalformed.
    destruct (wellFormed reqBody); [discriminate Hmalformed | discriminate].
  - reflexivity.
Defined.

(** C8. A successful sign-up (the body passes validation, the lookup finds
    no user, the insert returns) is answered 201, and its calls are the lookup
    and the insert: the session service is not called, so no session is
    created and the user is not logged in. *)
Theorem signUp_success_is_201_without_session
  {World} (svc : Services World) reqBody st w1 w2 :
  signUpDataValidationError svc reqBody = None ->
  findEmail svc (prop reqBody "email") (world st) = (Returned None, w1) ->
  createUser svc reqBody w1 = (Returned tt, w2) ->
  signUp svc reqBody st
  = (Returned (sendStatus 201),
     after st w2 [CallFindEmail (prop reqBody "email"); CallCreateUser reqBody] [])
  /\ forall userId, ~ In (CallCreateNewSession userId) (made (signUp svc reqBody) st).
Proof.
  intros Hvalid Hfind Hinsert.
  assert (Hrun : signUp svc reqBody st
                 = (Returned (sendStatus 201),
                    after st w2 [CallFindEmail (prop reqBody "email");
                                 CallCreateUser reqBody] [])).
  { by_cases. rewrite Hvalid, Hfind, Hinsert. reflexivity. }
  split; [exact Hrun|].
  intros userId Hin.
  rewrite (made_after (signUp svc reqBody) st w2
             [CallFindEmail (prop reqBody "email"); CallCreateUser reqBody] []) in Hin
    by now rewrite Hrun.
  destruct Hin as [H|[H|[]]]; discriminate.
Qed.

Lemma signUp_success_is_201_without_session_witness :
  signUp Mem.services Mem.signUpBody (fresh Mem.empty)
  = (Returned (sendStatus 201),
     after (fresh Mem.empty) Mem.registered
       [CallFindEmail (prop Mem.signUpBody "email"); CallCreateUser Mem.signUpBody] [])
  /\ forall userId,
       ~ In (CallCreateNewSession userId) (made (signUp Mem.services Mem.signUpBody) (fresh Mem.empty)).
Proof.
  apply (signUp_success_is_201_without_session Mem.services Mem.signUpBody (fresh Mem.empty)
           Mem.empty Mem.registered); reflexivity.
Defined.

(** The sign-up path never calls the session service, whatever the request
    and whatever the services do. *)
Lemma signUp_never_calls_session_service {World} (svc : Services World) reqBody st userId :
  ~ In (CallCreateNewSession userId) (made (signUp svc reqBody) st).
Proof.
  intros Hin.
  destruct (signUp_calls svc reqBody st) as [H | [H | [H _]]]; rewrite H in Hin.
  - destruct Hin.
  - destruct Hin as [E|[]]; discriminate.
  - destruct Hin as [E|[E|[]]]; discriminate.
Qed.

(** ** Faults *)

(** C9. When a call on a store throws during a sign-up or a sign-in request
    (the lookup or the insert of sign-up, the lookup or the session creation
    of sign-in), the request is answered with status 500 and the status text
    alone: the response is the same whatever the error, which goes to the
    server console and not to the caller. *)
Theorem store_fault_is_500
  {World} (svc : Services World) ep reqBody st e :
  StoreFault svc ep reqBody st e ->
  exists st',
    handler svc ep reqBody st = (Returned (mkResponse 500 (StatusText 500)), st')
    /\ console st' = (console st ++ [e])%list.
Proof.
  intros Hfault.
  destruct Hfault as [reqBody st e w1 Hvalid Hfind
                     | reqBody st e w1 w2 Hvalid Hfind Hinsert
                     | reqBody st e w1 Hemail Hpassword Hfind
                     | reqBody st e user w1 w2 Hemail Hpassword Hfind Hverify Hsession];
    cbn [handler]; by_cases.
  - rewrite Hvalid, Hfind. eexists. split; reflexivity.
  - rewrite Hvalid, Hfind, Hinsert. eexists. split; reflexivity.
  - rewrite Hemail, Hpassword, Hfind. eexists. split; reflexivity.
  - rewrite Hemail, Hpassword, Hfind, Hverify, Hsession. eexists. split; reflexivity.
Qed.

Lemma store_fault_is_500_witness :
  StoreFault Mem.down SignIn Mem.signInBody (fresh Mem.registered) Mem.connectionRefused
  /\ exists st',
       handler Mem.down SignIn Mem.signInBody (fresh Mem.registered)
       = (Returned (mkResponse 500 (StatusText 500)), st')
       /\ console st' = (console (fresh Mem.registered) ++ [Mem.connectionRefused])%list.
Proof.
  assert (Hfault : StoreFault Mem.down SignIn Mem.signInBody (fresh Mem.registered)
                     Mem.connectionRefused).
  { apply (signIn_lookup_throws Mem.down Mem.signInBody (fresh Mem.registered)
             Mem.connectionRefused Mem.registered); reflexivity. }
  split; [exact Hfault|].
  apply (store_fault_is_500 Mem.down SignIn Mem.signInBody (fresh Mem.registered)
           Mem.connectionRefused Hfault).
Defined.

(** ** Further properties of the handlers *)

Lemma skipn_after {World} (st : State World) w cs es :
  skipn (length (calls st)) (calls (after st w cs es)) = cs.
Proof.
  cbn. rewrite skipn_app, skipn_all, Nat.sub_diag. reflexivity.
Qed.

Lemma skipn_same {World} (st : State World) :
  skipn (length (calls st)) (calls st) = [].
Proof. apply skipn_all. Qed.

(** X1.  Every sign-in request is answered, and in one of five ways: the status
    text of 400, 404, 401 or 500, or status 200 with a [name] and a [token],
    both strings. *)
Theorem signIn_statuses {World} (svc : Services World) reqBody st :
  exists r st',
    signIn svc reqBody st = (Returned r, st')
    /\ (r = sendStatus 400 \/ r = sendStatus 404 \/ r = sendStatus 401
        \/ r = sendStatus 500
        \/ exists n t, r = mkResponse 200 (Json [("name", JStr n); ("token", JStr t)])).
Proof.
  by_cases. split_fields reqBody; try (do 2 eexists; split; [reflexivity | tauto]).
  split_cases; do 2 eexists; (split; [reflexivity|]); eauto 10.
Qed.


(** X3.  A sign-in request is answered 400 exactly when its email or its
    password is falsy (absent, null, false, zero or the empty string), and
    these are exactly the requests that call no service. *)
Theorem signIn_400_iff_falsy_field {World} (svc : Services World) reqBody st :
  (option_map status (answer (signIn svc reqBody) st) = Some 400
   <-> truthy (prop reqBody "email") = false \/ truthy (prop reqBody "password") = false)
  /\ (made (signIn svc reqBody) st = []
      <-> truthy (prop reqBody "email") = false \/ truthy (prop reqBody "password") = false).
Proof.
  unfold answer, made. by_cases. split_fields reqBody; split_cases; cbn [fst snd];
    rewrite ?skipn_after, ?skipn_same; cbn;
    (split; split; intros H; try discriminate H; auto;
     destruct H as [H|H]; discriminate H).
Qed.

(** X4.  Sign-in calls the services in a fixed order: the lookup first, the
    verification only against the hash of the user that the lookup returned,
    and the session creation only for that user and only when the verification
    returned true. *)
Theorem signIn_call_order {World} (svc : Services World) reqBody st :
  made (signIn svc reqBody) st = []
  \/ made (signIn svc reqBody) st = [CallFindEmail (prop reqBody "email")]
  \/ exists user w1,
       findEmail svc (prop reqBody "email") (world st) = (Returned (Some user), w1)
       /\ (made (signIn svc reqBody) st
           = [CallFindEmail (prop reqBody "email");
              CallIsPasswordValid (prop reqBody "password") (User.password user)]
           \/ (isPasswordValid svc (prop reqBody "password") (User.password user)
               = Returned true
               /\ made (signIn svc reqBody) st
                  = [CallFindEmail (prop reqBody "email");
                     CallIsPasswordValid (prop reqBody "password") (User.password user);
                     CallCreateNewSession (User.id user)])).
Proof.
  unfold made. by_cases. split_fields reqBody; split_cases; cbn [fst snd];
    rewrite ?skipn_after, ?skipn_same; auto.
  - right; right. exists user, w1. split; [reflexivity|]. right.
    rewrite Hverify. split; reflexivity.
  - right; right. exists user, w1. split; [reflexivity|]. right.
    rewrite Hverify. split; reflexivity.
  - right; right. exists user, w1. split; [reflexivity|]. left. reflexivity.
  - right; right. exists user, w1. split; [reflexivity|]. left. reflexivity.
Qed.

(** X5.  Sign-in never inserts a user, whatever the request and whatever the
    services answer. *)
Theorem signIn_never_calls_createUser {World} (svc : Services World) reqBody st data :
  ~ In (CallCreateUser data) (made (signIn svc reqBody) st).
Proof.
  unfold made. by_cases. split_fields reqBody; split_cases; cbn [fst snd];
    rewrite ?skipn_after, ?skipn_same; cbn; intuition discriminate.
Qed.

(** X6.  The calls of a sign-up request are among the lookup of its email and
    the insert of its whole body: it never verifies a password and never
    calls the session service. *)
Theorem signUp_calls_only_lookup_and_insert {World} (svc : Services World) reqBody st :
  incl (made (signUp svc reqBody) st)
       [CallFindEmail (prop reqBody "email"); CallCreateUser reqBody].
Proof.
  unfold made. by_cases. split_cases; cbn [fst snd];
    rewrite ?skipn_after, ?skipn_same; intros c Hin; cbn in *; tauto.
Qed.

(** X7.  Sign-up calls [createUser] only with the whole body of the request, only
    when the body passed validation and the lookup of its email returned no
    user, and only after that lookup. *)
Theorem signUp_inserts_only_after_empty_lookup
  {World} (svc : Services World) reqBody st data :
  In (CallCreateUser data) (made (signUp svc reqBody) st) ->
  data = reqBody
  /\ signUpDataValidationError svc reqBody = None
  /\ exists w1,
       findEmail svc (prop reqBody "email") (world st) = (Returned None, w1)
       /\ made (signUp svc reqBody) st
          = [CallFindEmail (prop reqBody "email"); CallCreateUser reqBody].
Proof.
  unfold made. by_cases. split_cases; cbn [fst snd];
    rewrite ?skipn_after, ?skipn_same; cbn; intros Hin;
    repeat (destruct Hin as [Hin|Hin]; try discriminate Hin); try contradiction;
    injection Hin as <-; eauto.
Qed.

Lemma signUp_inserts_only_after_empty_lookup_witness :
  Mem.signUpBody = Mem.signUpBody
  /\ signUpDataValidationError Mem.services Mem.signUpBody = None
  /\ exists w1,
       findEmail Mem.services (prop Mem.signUpBody "email") (world (fresh Mem.empty))
       = (Returned None, w1)
       /\ made (signUp Mem.services Mem.signUpBody) (fresh Mem.empty)
          = [CallFindEmail (prop Mem.signUpBody "email"); CallCreateUser Mem.signUpBody].
Proof.
  apply (signUp_inserts_only_after_empty_lookup Mem.services Mem.signUpBody
           (fresh Mem.empty) Mem.signUpBody).
  vm_compute. right. left. reflexivity.
Defined.

(** X8.  When the password verification itself throws (as on a password that is
    not a string), a sign-in request whose lookup returned a user is answered
    500: the error is printed, and no session is created. *)
Theorem signIn_verify_throw_is_500
  {World} (svc : Services World) reqBody st user w1 e :
  truthy (prop reqBody "email") = true ->
  truthy (prop reqBody "password") = true ->
  findEmail svc (prop reqBody "email") (world st) = (Returned (Some user), w1) ->
  isPasswordValid svc (prop reqBody "password") (User.password user) = Thrown e ->
  signIn svc reqBody st
  = (Returned (sendStatus 500),
     after st w1 [CallFindEmail (prop reqBody "email");
                  CallIsPasswordValid (prop reqBody "password") (User.password user)] [e]).
Proof.
  intros Hemail Hpassword Hfind Hverify. by_cases.
  rewrite Hemail, Hpassword, Hfind, Hverify. reflexivity.
Qed.

Lemma signIn_verify_throw_is_500_witness :
  signIn Mem.services [("email", JStr "a@x.com"); ("password", JNum 12345)]
    (fresh Mem.registered)
  = (Returned (sendStatus 500),
     after (fresh Mem.registered) Mem.registered
       [CallFindEmail (JStr "a@x.com");
        CallIsPasswordValid (JNum 12345) (User.password Mem.alice)]
       [mkError "Error" "data must be a string or Buffer"]).
Proof.
  apply (signIn_verify_throw_is_500 Mem.services
           [("email", JStr "a@x.com"); ("password", JNum 12345)]
           (fresh Mem.registered) Mem.alice Mem.registered
           (mkError "Error" "data must be a string or Buffer")); reflexivity.
Defined.

(** X9.  A sign-in request is answered 200 only when both fields are truthy, the
    lookup returned a user, the verification returned true and the session
    creation returned a token; the body then carries the name of that user
    and that token, and the three calls were made in this order. *)
Theorem signIn_200_only_after_session
  {World} (svc : Services World) reqBody st r st' :
  signIn svc reqBody st = (Returned r, st') ->
  status r = 200 ->
  truthy (prop reqBody "email") = true
  /\ truthy (prop reqBody "password") = true
  /\ exists user w1 token w2,
       findEmail svc (prop reqBody "email") (world st) = (Returned (Some user), w1)
       /\ isPasswordValid svc (prop reqBody "password") (User.password user) = Returned true
       /\ createNewSession svc (User.id user) w1 = (Returned token, w2)
       /\ r = mkResponse 200 (Json [("name", JStr (User.name user)); ("token", JStr token)])
       /\ st' = after st w2
                  [CallFindEmail (prop reqBody "email");
                   CallIsPasswordValid (prop reqBody "password") (User.password user);
                   CallCreateNewSession (User.id user)] [].
Proof.
  by_cases. split_fields reqBody; split_cases; intros H Hstatus; answered H;
    try discriminate Hstatus.
  do 2 (split; [reflexivity|]). exists user, w1, token, w2.
  rewrite Hverify, Hsession. repeat split.
Qed.

Lemma signIn_200_only_after_session_witness :
  truthy (prop Mem.signInBody "email") = true
  /\ truthy (prop Mem.signInBody "password") = true
  /\ exists user w1 token w2,
       findEmail Mem.services (prop Mem.signInBody "email") (world (fresh Mem.registered))
       = (Returned (Some user), w1)
       /\ isPasswordValid Mem.services (prop Mem.signInBody "password") (User.password user)
          = Returned true
       /\ createNewSession Mem.services (User.id user) w1 = (Returned token, w2)
       /\ mkResponse 200 (Json [("name", JStr "A"); ("token", JStr "token-0")])
          = mkResponse 200 (Json [("name", JStr (User.name user)); ("token", JStr token)])
       /\ after (fresh Mem.registered) (Mem.mkWorld [Mem.alice] [("token-0", 1)])
            [CallFindEmail (JStr "a@x.com");
             CallIsPasswordValid (JStr "p1") (Mem.hash "p1");
             CallCreateNewSession 1] []
          = after (fresh Mem.registered) w2
              [CallFindEmail (prop Mem.signInBody "email");
               CallIsPasswordValid (prop Mem.signInBody "password") (User.password user);
               CallCreateNewSession (User.id user)] [].
Proof.
  apply (signIn_200_only_after_session Mem.services Mem.signInBody (fresh Mem.registered));
    reflexivity.
Defined.

(** X10.  A sign-in request is answered 404 only when both fields are truthy and
    the lookup of its email returned no user; the lookup was then its only
    call. *)
Theorem signIn_404_only_for_unknown_email
  {World} (svc : Services World) reqBody st r st' :
  signIn svc reqBody st = (Returned r, st') ->
  status r = 404 ->
  truthy (prop reqBody "email") = true
  /\ truthy (prop reqBody "password") = true
  /\ exists w1,
       findEmail svc (prop reqBody "email") (world st) = (Returned None, w1)
       /\ st' = after st w1 [CallFindEmail (prop reqBody "email")] [].
Proof.
  by_cases. split_fields reqBody; split_cases; intros H Hstatus; answered H;
    try discriminate Hstatus.
  do 2 (split; [reflexivity|]). exists w1. split; reflexivity.
Qed.

Lemma signIn_404_only_for_unknown_email_witness :
  truthy (prop Mem.ghostFullBody "email") = true
  /\ truthy (prop Mem.ghostFullBody "password") = true
  /\ exists w1,
       findEmail Mem.services (prop Mem.ghostFullBody "email") (world (fresh Mem.registered))
       = (Returned None, w1)
       /\ after (fresh Mem.registered) Mem.registered [CallFindEmail (JStr "ghost@x.com")] []
          = after (fresh Mem.registered) w1 [CallFindEmail (prop Mem.ghostFullBody "email")] [].
Proof.
  apply (signIn_404_only_for_unknown_email Mem.services Mem.ghostFullBody
           (fresh Mem.registered) (sendStatus 404)); reflexivity.
Defined.

(** X11.  A sign-in request is answered 401 only when both fields are truthy, the
    lookup returned a user and the verification against the hash of that user
    returned false; no session creation was then called. *)
Theorem signIn_401_only_for_refused_password
  {World} (svc : Services World) reqBody st r st' :
  signIn svc reqBody st = (Returned r, st') ->
  status r = 401 ->
  truthy (prop reqBody "email") = true
  /\ truthy (prop reqBody "password") = true
  /\ exists user w1,
       findEmail svc (prop reqBody "email") (world st) = (Returned (Some user), w1)
       /\ isPasswordValid svc (prop reqBody "password") (User.password user) = Returned false
       /\ st' = after st w1
                  [CallFindEmail (prop reqBody "email");
                   CallIsPasswordValid (prop reqBody "password") (User.password user)] [].
Proof.
  by_cases. split_fields reqBody; split_cases; intros H Hstatus; answered H;
    try discriminate Hstatus.
  do 2 (split; [reflexivity|]). exists user, w1.
  rewrite Hverify. repeat split.
Qed.

Lemma signIn_401_only_for_refused_password_witness :
  truthy (prop Mem.wrongPasswordBody "email") = true
  /\ truthy (prop Mem.wrongPasswordBody "password") = true
  /\ exists user w1,
       findEmail Mem.services (prop Mem.wrongPasswordBody "email")
         (world (fresh Mem.registered))
       = (Returned (Some user), w1)
       /\ isPasswordValid Mem.services (prop Mem.wrongPasswordBody "password")
            (User.password user) = Returned false
       /\ after (fresh Mem.registered) Mem.registered
            [CallFindEmail (JStr "a@x.com");
             CallIsPasswordValid (JStr "p2") (Mem.hash "p1")] []
          = after (fresh Mem.registered) w1
              [CallFindEmail (prop Mem.wrongPasswordBody "email");
               CallIsPasswordValid (prop Mem.wrongPasswordBody "password")
                 (User.password user)] [].
Proof.
  apply (signIn_401_only_for_refused_password Mem.services Mem.wrongPasswordBody
           (fresh Mem.registered) (sendStatus 401)); reflexivity.
Defined.

(** X12.  A sign-up request is answered 201 only when its body passed validation,
    the lookup of its email returned no user and the insert of its body
    returned. *)
Theorem signUp_201_only_after_insert
  {World} (svc : Services World) reqBody st r st' :
  signUp svc reqBody st = (Returned r, st') ->
  status r = 201 ->
  signUpDataValidationError svc reqBody = None
  /\ exists w1 w2,
       findEmail svc (prop reqBody "email") (world st) = (Returned None, w1)
       /\ createUser svc reqBody w1 = (Returned tt, w2)
       /\ st' = after st w2
                  [CallFindEmail (prop reqBody "email"); CallCreateUser reqBody] [].
Proof.
  by_cases. split_cases; intros H Hstatus; answered H; try discriminate Hstatus.
  split; [reflexivity|]. exists w1, w2. rewrite Hinsert. repeat split.
Qed.

Lemma signUp_201_only_after_insert_witness :
  signUpDataValidationError Mem.services Mem.signUpBody = None
  /\ exists w1 w2,
       findEmail Mem.services (prop Mem.signUpBody "email") (world (fresh Mem.empty))
       = (Returned None, w1)
       /\ createUser Mem.services Mem.signUpBody w1 = (Returned tt, w2)
       /\ after (fresh Mem.empty) Mem.registered
            [CallFindEmail (JStr "a@x.com"); CallCreateUser Mem.signUpBody] []
          = after (fresh Mem.empty) w2
              [CallFindEmail (prop Mem.signUpBody "email"); CallCreateUser Mem.signUpBody] [].
Proof.
  apply (signUp_201_only_after_insert Mem.services Mem.signUpBody (fresh Mem.empty)
           (sendStatus 201)); reflexivity.
Defined.

(** X13.  A sign-up request is answered 409 only when its body passed validation
    and the lookup of its email returned a user; nothing was then inserted. *)
Theorem signUp_409_only_for_found_email
  {World} (svc : Services World) reqBody st r st' :
  signUp svc reqBody st = (Returned r, st') ->
  status r = 409 ->
  signUpDataValidationError svc reqBody = None
  /\ exists user w1,
       findEmail svc (prop reqBody "email") (world st) = (Returned (Some user), w1)
       /\ st' = after st w1 [CallFindEmail (prop reqBody "email")] [].
Proof.
  by_cases. split_cases; intros H Hstatus; answered H; try discriminate Hstatus.
  split; [reflexivity|]. exists user, w1. split; reflexivity.
Qed.

Lemma signUp_409_only_for_found_email_witness :
  signUpDataValidationError Mem.services Mem.signUpBody = None
  /\ exists user w1,
       findEmail Mem.services (prop Mem.signUpBody "email") (world (fresh Mem.registered))
       = (Returned (Some user), w1)
       /\ after (fresh Mem.registered) Mem.registered [CallFindEmail (JStr "a@x.com")] []
          = after (fresh Mem.registered) w1 [CallFindEmail (prop Mem.signUpBody "email")] [].
Proof.
  apply (signUp_409_only_for_found_email Mem.services Mem.signUpBody
           (fresh Mem.registered) (sendStatus 409)); reflexivity.
Defined.

(** X14.  Both handlers print to the console exactly when they answer 500: the
    console then gains one error, and is unchanged otherwise. *)
Theorem console_grows_iff_500
  {World} (svc : Services World) ep reqBody st r st' :
  handler svc ep reqBody st = (Returned r, st') ->
  (status r = 500 /\ exists e, console st' = (console st ++ [e])%list)
  \/ (status r <> 500 /\ console st' = console st).
Proof.
  destruct ep; cbn [handler]; by_cases.
  - split_cases; intros H; answered H; cbn;
      rewrite ?app_nil_r; solve [left; eauto | right; split; [discriminate | reflexivity]].
  - split_fields reqBody; split_cases; intros H; answered H; cbn;
      rewrite ?app_nil_r; solve [left; eauto | right; split; [discriminate | reflexivity]].
Qed.

Lemma console_grows_iff_500_witness :
  (status (sendStatus 500) = 500
   /\ exists e,
        console (after (fresh Mem.registered) Mem.registered
                   [CallFindEmail (JStr "a@x.com")] [Mem.connectionRefused])
        = (console (fresh Mem.registered) ++ [e])%list)
  \/ (status (sendStatus 500) <> 500
      /\ console (after (fresh Mem.registered) Mem.registered
                    [CallFindEmail (JStr "a@x.com")] [Mem.connectionRefused])
         = console (fresh Mem.registered)).
Proof.
  apply (console_grows_iff_500 Mem.down SignIn Mem.signInBody (fresh Mem.registered)).
  reflexivity.
Defined.

(** X15.  Sign-in reads its body only through [email] and [password]: two bodies
    with the same two properties are handled alike, whatever else they
    carry. *)
Theorem signIn_reads_only_email_and_password
  {World} (svc : Services World) reqBody other st :
  prop other "email" = prop reqBody "email" ->
  prop other "password" = prop reqBody "password" ->
  signIn svc other st = signIn svc reqBody st.
Proof.
  intros Hemail Hpassword. unfold signIn. rewrite Hemail, Hpassword. reflexivity.
Qed.

Lemma signIn_reads_only_email_and_password_witness :
  signIn Mem.services Mem.signUpBody (fresh Mem.registered)
  = signIn Mem.services Mem.signInBody (fresh Mem.registered).
Proof.
  apply (signIn_reads_only_email_and_password Mem.services Mem.signInBody Mem.signUpBody
           (fresh Mem.registered)); reflexivity.
Defined.
